(** * BloodMoon_bot: the Telegram tools and the two-step workflow

    A shallow embedding of
      - src/mastra/tools/telegramAdminTool.ts
          (checkTelegramAdminTool, sendTelegramMessageTool), and
      - the workflow file with its steps useAgent and sendReply and the
          agent declaration telegramBotAgent.

    The code is asynchronous JavaScript that reads one environment
    variable, performs one HTTP POST through [fetch], reads a few
    properties of the parsed JSON answer and catches every exception of
    the remote call.  It is embedded in a small monad [M] that threads
    the list of requests sent so far and carries a thrown value; the
    remote side is a function from requests to what [fetch] and
    [response.json()] do.  Calls of the optional logger are left out:
    they produce no value that the functions use. *)

From Stdlib Require Import String List Bool QArith ZArith Lia.
Import ListNotations.
Local Open Scope string_scope.

Set Implicit Arguments.
Set Warnings "-register-all".

(* ===================================================================== *)
(** ** JavaScript values *)
(* ===================================================================== *)

(** A JavaScript number: a finite double is a rational. *)
Inductive number : Type :=
  | Finite (q : Q)
  | Infinity
  | NegInfinity
  | NaN.

(** What [response.json()] can resolve to, plus [undefined], the result
    of reading a property that is not there. *)
Inductive value : Type :=
  | VUndef
  | VNull
  | VBool (b : bool)
  | VNum (n : number)
  | VStr (s : string)
  | VArr (items : list value)
  | VObj (props : list (string * value)).

(** ToBoolean: [undefined], [null], [false], [0], [NaN] and the empty
    string are falsy, everything else is truthy. *)
Definition truthy (v : value) : bool :=
  match v with
  | VUndef | VNull => false
  | VBool b => b
  | VNum (Finite q) => negb (Z.eqb (Qnum q) 0)
  | VNum NaN => false
  | VNum _ => true
  | VStr s => negb (String.eqb s EmptyString)
  | VArr _ | VObj _ => true
  end.

(** [a || b] on values. *)
Definition or_else (a b : value) : value := if truthy a then a else b.

(** [v === "literal"]: strict equality with a string literal holds for
    that very string only. *)
Definition strict_eq_string (v : value) (lit : string) : bool :=
  match v with
  | VStr s => String.eqb s lit
  | _ => false
  end.

(** The own properties of an object, first binding of a name. *)
Fixpoint own_property (props : list (string * value)) (name : string) : option value :=
  match props with
  | [] => None
  | (k, v) :: rest => if String.eqb k name then Some v else own_property rest name
  end.

(** What is thrown: an [Error] instance with its [message], or any other
    value. *)
Inductive thrown : Type :=
  | ThrownError (message : string)
  | ThrownOther.

(** The property names the program reads from the remote answer. *)
Inductive property : Type :=
  | P_ok
  | P_description
  | P_result
  | P_status
  | P_message_id.

Definition property_name (p : property) : string :=
  match p with
  | P_ok => "ok"
  | P_description => "description"
  | P_result => "result"
  | P_status => "status"
  | P_message_id => "message_id"
  end.

(** The TypeError of reading a property of [undefined] or [null]. *)
Definition cannot_read (of_what : string) (p : property) : thrown :=
  ThrownError ("Cannot read properties of " ++ of_what
               ++ " (reading '" ++ property_name p ++ "')").

(** [v.p] for the five names above: a TypeError on [undefined] and
    [null], the own property of an object, and [undefined] on an object
    without it and on booleans, numbers, strings and arrays (none of
    their prototypes defines one of the five names). *)
Definition get_property (v : value) (p : property) : thrown + value :=
  match v with
  | VUndef => inl (cannot_read "undefined" p)
  | VNull => inl (cannot_read "null" p)
  | VObj props =>
      match own_property props (property_name p) with
      | Some x => inr x
      | None => inr VUndef
      end
  | _ => inr VUndef
  end.

(** A chat id is a string or a number ([z.union([z.string(), z.number()])]). *)
Inductive chat_id : Type :=
  | ChatIdString (s : string)
  | ChatIdNumber (n : number).

Definition chat_id_value (c : chat_id) : value :=
  match c with
  | ChatIdString s => VStr s
  | ChatIdNumber n => VNum n
  end.

(* ===================================================================== *)
(** ** The process environment and the remote side *)
(* ===================================================================== *)

(** [process.env]: the one variable the program reads. *)
Record environment : Type := {
  TELEGRAM_BOT_TOKEN : option string
}.

(** [!botToken]: the variable is unset or the empty string. *)
Definition not_token (botToken : option string) : bool :=
  match botToken with
  | None => true
  | Some s => String.eqb s EmptyString
  end.

(** [`...${botToken}...`]: only reached with a token that is set. *)
Definition token_text (botToken : option string) : string :=
  match botToken with
  | None => "undefined"
  | Some s => s
  end.

(** The argument of [fetch]; [body] is the object handed to
    [JSON.stringify]. *)
Record request : Type := {
  url : string;
  method : string;
  headers : list (string * string);
  body : value
}.

(** A response: what [response.json()] does with it. *)
Record response : Type := {
  json_result : thrown + value
}.

(** The remote side: [fetch] rejects, or resolves to a response. *)
Definition network : Type := request -> thrown + response.

(* ===================================================================== *)
(** ** The monad of the asynchronous code *)
(* ===================================================================== *)

(** A computation runs against a network, extends the list of requests
    sent so far and ends with a value or with a thrown value. *)
Definition M (A : Type) : Type :=
  network -> list request -> (thrown + A) * list request.

Definition ret {A : Type} (a : A) : M A :=
  fun _ sent => (inr a, sent).

Definition bind {A B : Type} (m : M A) (k : A -> M B) : M B :=
  fun net sent =>
    match m net sent with
    | (inl e, sent') => (inl e, sent')
    | (inr a, sent') => k a net sent'
    end.

(** [try { m } catch (error) { handler error }]: the requests that [m]
    sent stay sent. *)
Definition try_catch {A : Type} (m : M A) (handler : thrown -> M A) : M A :=
  fun net sent =>
    match m net sent with
    | (inl e, sent') => handler e net sent'
    | (inr a, sent') => (inr a, sent')
    end.

(** Lifting a property read that may throw. *)
Definition lift {A : Type} (r : thrown + A) : M A :=
  fun _ sent => (r, sent).

(** [await fetch(url, init)]. *)
Definition fetch (req : request) : M response :=
  fun net sent => (net req, (sent ++ [req])%list).

(** [await response.json()]. *)
Definition json (r : response) : M value := lift (json_result r).

Declare Scope js_scope.
Delimit Scope js_scope with js.
Notation "x <- m ;; k" := (bind m (fun x => k))
  (at level 61, m at next level, right associativity) : js_scope.
Local Open Scope js_scope.

(** The POST request both tools and the step build. *)
Definition post (botToken : option string) (api_method : string) (payload : value) : request :=
  {| url := "https://api.telegram.org/bot" ++ token_text botToken ++ "/" ++ api_method;
     method := "POST";
     headers := [("Content-Type", "application/json")];
     body := payload |}.

(** [error instanceof Error ? error.message : "Unknown error"]. *)
Definition error_message (e : thrown) : value :=
  match e with
  | ThrownError message => VStr message
  | ThrownOther => VStr "Unknown error"
  end.

(* ===================================================================== *)
(** ** checkTelegramAdminTool (telegramAdminTool.ts, lines 7-84) *)
(* ===================================================================== *)

Module checkTelegramAdminTool.

Record input : Type := {
  chatId : chat_id;
  userId : number
}.

(** The output object; [None] is a property the object literal does
    not have. *)
Record output : Type := {
  isAdmin : bool;
  status : option value;
  error : option value
}.

Definition payload (context : input) : value :=
  VObj [("chat_id", chat_id_value (chatId context));
        ("user_id", VNum (userId context))].

Definition execute (env : environment) (context : input) : M output :=
  let botToken := TELEGRAM_BOT_TOKEN env in
  if not_token botToken then
    ret {| isAdmin := false;
           status := None;
           error := Some (VStr "Bot token not configured") |}
  else
    try_catch
      (response <- fetch (post botToken "getChatMember" (payload context)) ;;
       data <- json response ;;
       ok <- lift (get_property data P_ok) ;;
       if negb (truthy ok) then
         description <- lift (get_property data P_description) ;;
         ret {| isAdmin := false;
                status := None;
                error := Some (or_else description
                                 (VStr "Failed to check admin status")) |}
       else
         result <- lift (get_property data P_result) ;;
         memberStatus <- lift (get_property result P_status) ;;
         let isAdmin := strict_eq_string memberStatus "creator"
                        || strict_eq_string memberStatus "administrator" in
         ret {| isAdmin := isAdmin;
                status := Some memberStatus;
                error := None |})
      (fun error =>
         ret {| isAdmin := false;
                status := None;
                error := Some (error_message error) |}).

End checkTelegramAdminTool.

(* ===================================================================== *)
(** ** sendTelegramMessageTool (telegramAdminTool.ts, lines 89-162) *)
(* ===================================================================== *)

Module sendTelegramMessageTool.

Record input : Type := {
  chatId : chat_id;
  text : string
}.

Record output : Type := {
  success : bool;
  messageId : option value;
  error : option value
}.

Definition payload (context : input) : value :=
  VObj [("chat_id", chat_id_value (chatId context));
        ("text", VStr (text context))].

Definition execute (env : environment) (context : input) : M output :=
  let botToken := TELEGRAM_BOT_TOKEN env in
  if not_token botToken then
    ret {| success := false;
           messageId := None;
           error := Some (VStr "Bot token not configured") |}
  else
    try_catch
      (response <- fetch (post botToken "sendMessage" (payload context)) ;;
       data <- json response ;;
       ok <- lift (get_property data P_ok) ;;
       if negb (truthy ok) then
         description <- lift (get_property data P_description) ;;
         ret {| success := false;
                messageId := None;
                error := Some (or_else description
                                 (VStr "Failed to send message")) |}
       else
         result <- lift (get_property data P_result) ;;
         message_id <- lift (get_property result P_message_id) ;;
         ret {| success := true;
                messageId := Some message_id;
                error := None |})
      (fun error =>
         ret {| success := false;
                messageId := None;
                error := Some (error_message error) |}).

End sendTelegramMessageTool.

(* ===================================================================== *)
(** ** telegramBotAgent (the agent declaration) *)
(* ===================================================================== *)

(** The agent is an [Agent] object configured with natural-language
    instructions, the model gpt-4o and the tool checkTelegramAdminTool;
    [telegramBotAgent.generate] sends the prompt to the remote language
    model, which may call the tool, and resolves to the model's text.
    Nothing in the sources computes that text, so [generate] is a
    variable of the section that embeds the step using it. *)
Module telegramBotAgent.

Record chat_message : Type := {
  role : string;
  content : string
}.

Record generate_options : Type := {
  resourceId : string;
  threadId : string;
  maxSteps : nat
}.

Record generate_result : Type := {
  text : string
}.

Definition generate_type : Type :=
  list chat_message -> generate_options -> M generate_result.

End telegramBotAgent.

(* ===================================================================== *)
(** ** Step 1: useAgent *)
(* ===================================================================== *)

Module useAgent.

Record input : Type := {
  message : string;
  threadId : string;
  chatId : chat_id;
  userId : number
}.

Module outputData.
Record t : Type := {
  response : string;
  chatId : chat_id
}.
End outputData.
Definition output : Type := outputData.t.

Section WithAgent.

(** Number::toString, for the numbers spliced into the prompt. *)
Variable number_to_string : number -> string.
Variable generate : telegramBotAgent.generate_type.

Definition chat_id_to_string (c : chat_id) : string :=
  match c with
  | ChatIdString s => s
  | ChatIdNumber n => number_to_string n
  end.

Definition prompt (inputData : input) : string :=
  "
User message: " ++ message inputData ++ "
Chat ID: " ++ chat_id_to_string (chatId inputData) ++ "
User ID: " ++ number_to_string (userId inputData) ++ "

Please process this message according to your instructions.
".

Definition execute (inputData : input) : M output :=
  result <- generate
              [ {| telegramBotAgent.role := "user";
                   telegramBotAgent.content := prompt inputData |} ]
              {| telegramBotAgent.resourceId := "telegram-bot";
                 telegramBotAgent.threadId := threadId inputData;
                 telegramBotAgent.maxSteps := 5 |} ;;
  ret {| outputData.response := telegramBotAgent.text result;
         outputData.chatId := chatId inputData |}.

End WithAgent.

End useAgent.

(* ===================================================================== *)
(** ** Step 2: sendReply *)
(* ===================================================================== *)

Module sendReply.

Record input : Type := {
  response : string;
  chatId : chat_id
}.

(** The output object has the two properties of the step's output
    schema; an error property is in neither. *)
Record output : Type := {
  success : bool;
  messageId : option value
}.

Definition payload (inputData : input) : value :=
  VObj [("chat_id", chat_id_value (chatId inputData));
        ("text", VStr (response inputData))].

Definition execute (env : environment) (inputData : input) : M output :=
  let botToken := TELEGRAM_BOT_TOKEN env in
  if not_token botToken then
    ret {| success := false; messageId := None |}
  else
    try_catch
      (response <- fetch (post botToken "sendMessage" (payload inputData)) ;;
       data <- json response ;;
       ok <- lift (get_property data P_ok) ;;
       if negb (truthy ok) then
         ret {| success := false; messageId := None |}
       else
         result <- lift (get_property data P_result) ;;
         message_id <- lift (get_property result P_message_id) ;;
         ret {| success := true; messageId := Some message_id |})
      (fun _ =>
         ret {| success := false; messageId := None |}).

(** The properties of the returned object literal, by name. *)
Definition properties (o : output) : list (string * value) :=
  ("success", VBool (success o))
  :: match messageId o with
     | Some id => [("messageId", id)]
     | None => []
     end.

End sendReply.

(* ===================================================================== *)
(** ** The workflow *)
(* ===================================================================== *)

Module telegramBotWorkflow.

Record input : Type := {
  message : string;
  threadId : string;
  chatId : chat_id;
  userId : number
}.

Section WithAgent.

Variable number_to_string : number -> string.
Variable generate : telegramBotAgent.generate_type.

(** Modelled from the spec: [createWorkflow(...).then(a).then(b).commit()]
    comes from the module ../inngest, which is not among the sources.
    The spec has the dispatcher as "a fixed two-hop pipeline" that
    "must execute the hops strictly in order", every stage consuming
    the result of the one before it. *)
Definition run (env : environment) (inputData : input) : M sendReply.output :=
  agentOutput <- useAgent.execute number_to_string generate
                   {| useAgent.message := message inputData;
                      useAgent.threadId := threadId inputData;
                      useAgent.chatId := chatId inputData;
                      useAgent.userId := userId inputData |} ;;
  sendReply.execute env
    {| sendReply.response := useAgent.outputData.response agentOutput;
       sendReply.chatId := useAgent.outputData.chatId agentOutput |}.

End WithAgent.

End telegramBotWorkflow.

(* ===================================================================== *)
(** ** Vocabulary of the statements *)
(* ===================================================================== *)

(** The try block throws [e]: [fetch] rejects, [response.json()] rejects,
    the parsed answer is [null] or [undefined], or the answer is ok but
    its [result] cannot be read at [field]. *)
Inductive raises (net : network) (req : request) (field : property) : thrown -> Prop :=
  | raises_fetch e :
      net req = inl e ->
      raises net req field e
  | raises_json resp e :
      net req = inr resp ->
      json_result resp = inl e ->
      raises net req field e
  | raises_data resp data e :
      net req = inr resp ->
      json_result resp = inr data ->
      get_property data P_ok = inl e ->
      raises net req field e
  | raises_result resp data ok result e :
      net req = inr resp ->
      json_result resp = inr data ->
      get_property data P_ok = inr ok ->
      truthy ok = true ->
      get_property data P_result = inr result ->
      get_property result field = inl e ->
      raises net req field e.

(** The ways a query of the admin oracle fails. *)
Inductive failure : Type :=
  | MissingCredential
  | NotOk (description : value)
  | Exception (e : thrown).

Definition getChatMember (env : environment) (context : checkTelegramAdminTool.input) : request :=
  post (TELEGRAM_BOT_TOKEN env) "getChatMember" (checkTelegramAdminTool.payload context).

Inductive oracle_fails (env : environment) (context : checkTelegramAdminTool.input)
    (net : network) : failure -> Prop :=
  | fails_missing_credential :
      not_token (TELEGRAM_BOT_TOKEN env) = true ->
      oracle_fails env context net MissingCredential
  | fails_not_ok resp data ok description :
      not_token (TELEGRAM_BOT_TOKEN env) = false ->
      net (getChatMember env context) = inr resp ->
      json_result resp = inr data ->
      get_property data P_ok = inr ok ->
      truthy ok = false ->
      get_property data P_description = inr description ->
      oracle_fails env context net (NotOk description)
  | fails_exception e :
      not_token (TELEGRAM_BOT_TOKEN env) = false ->
      raises net (getChatMember env context) P_status e ->
      oracle_fails env context net (Exception e).

(** The request of a delivery to [chat] with the text [reply]; the step
    and the tool build the same one. *)
Definition sendMessage (env : environment) (chat : chat_id) (reply : string) : request :=
  post (TELEGRAM_BOT_TOKEN env) "sendMessage"
    (VObj [("chat_id", chat_id_value chat); ("text", VStr reply)]).

(** An error description that is there and not empty. *)
Definition non_empty (d : option value) : Prop :=
  exists v, d = Some v /\ truthy v = true.

(** The outcome of the step, read off the outcome of the tool: the same
    object without its error property. *)
Definition without_error (o : sendTelegramMessageTool.output) : sendReply.output :=
  {| sendReply.success := sendTelegramMessageTool.success o;
     sendReply.messageId := sendTelegramMessageTool.messageId o |}.

(** What a delivery attempt through [req] comes to, as the tool reports
    it: acknowledged with the remote message id, refused by the remote,
    or broken by an exception in the try block. *)
Inductive delivery (net : network) (req : request) : sendTelegramMessageTool.output -> Prop :=
  | delivery_acknowledged resp data ok result message_id :
      net req = inr resp ->
      json_result resp = inr data ->
      get_property data P_ok = inr ok ->
      truthy ok = true ->
      get_property data P_result = inr result ->
      get_property result P_message_id = inr message_id ->
      delivery net req
        {| sendTelegramMessageTool.success := true;
           sendTelegramMessageTool.messageId := Some message_id;
           sendTelegramMessageTool.error := None |}
  | delivery_refused resp data ok description :
      net req = inr resp ->
      json_result resp = inr data ->
      get_property data P_ok = inr ok ->
      truthy ok = false ->
      get_property data P_description = inr description ->
      delivery net req
        {| sendTelegramMessageTool.success := false;
           sendTelegramMessageTool.messageId := None;
           sendTelegramMessageTool.error :=
             Some (or_else description (VStr "Failed to send message")) |}
  | delivery_broken e :
      raises net req P_message_id e ->
      delivery net req
        {| sendTelegramMessageTool.success := false;
           sendTelegramMessageTool.messageId := None;
           sendTelegramMessageTool.error := Some (error_message e) |}.

(** The one message and the options of the agent call of useAgent. *)
Definition agent_messages (number_to_string : number -> string)
    (inputData : useAgent.input) : list telegramBotAgent.chat_message :=
  [ {| telegramBotAgent.role := "user";
       telegramBotAgent.content := useAgent.prompt number_to_string inputData |} ].

Definition agent_options (inputData : useAgent.input) : telegramBotAgent.generate_options :=
  {| telegramBotAgent.resourceId := "telegram-bot";
     telegramBotAgent.threadId := useAgent.threadId inputData;
     telegramBotAgent.maxSteps := 5 |}.



(** Concrete inputs for the examples. *)
Definition env_with_token : environment := {| TELEGRAM_BOT_TOKEN := Some "123:abc" |}.
Definition env_without_token : environment := {| TELEGRAM_BOT_TOKEN := None |}.

Definition finite (z : Z) : number := Finite (inject_Z z).

Definition some_member : checkTelegramAdminTool.input :=
  {| checkTelegramAdminTool.chatId := ChatIdNumber (finite (-1001));
     checkTelegramAdminTool.userId := finite 42 |}.

Definition some_reply : sendReply.input :=
  {| sendReply.response := "Hello everyone!";
     sendReply.chatId := ChatIdNumber (finite (-1001)) |}.

Definition some_message : sendTelegramMessageTool.input :=
  {| sendTelegramMessageTool.chatId := ChatIdNumber (finite (-1001));
     sendTelegramMessageTool.text := "Hello everyone!" |}.

Definition some_command : useAgent.input :=
  {| useAgent.message := "/text Hello everyone!";
     useAgent.threadId := "telegram/-1001";
     useAgent.chatId := ChatIdNumber (finite (-1001));
     useAgent.userId := finite 42 |}.

(** An agent that answers every prompt with the same text and calls no
    tool, and a stand-in for the printing of numbers. *)
Definition constant_agent (reply : string) : telegramBotAgent.generate_type :=
  fun _ _ => ret {| telegramBotAgent.text := reply |}.

Definition print_nothing : number -> string := fun _ => EmptyString.

(** An agent that throws at every call, and one that first queries the
    admin oracle and then answers with a fixed text. *)
Definition failing_agent (e : thrown) : telegramBotAgent.generate_type :=
  fun _ _ net sent => (inl e, sent).



Definition resolves (data : value) : network :=
  fun _ => inr {| json_result := inr data |}.

Definition rejects (e : thrown) : network :=
  fun _ => inl e.

Definition member_answer (memberStatus : string) : value :=
  VObj [("ok", VBool true); ("result", VObj [("status", VStr memberStatus)])].

Definition not_ok_answer (description : string) : value :=
  VObj [("ok", VBool false); ("description", VStr description)].

Definition sent_answer (id : Z) : value :=
  VObj [("ok", VBool true); ("result", VObj [("message_id", VNum (finite id))])].

(* ===================================================================== *)
(** ** Running the code on small inputs *)
(* ===================================================================== *)

Example checkAdmin_creator :
  checkTelegramAdminTool.execute env_with_token some_member (resolves (member_answer "creator")) []
  = (inr {| checkTelegramAdminTool.isAdmin := true;
            checkTelegramAdminTool.status := Some (VStr "creator");
            checkTelegramAdminTool.error := None |},
     [getChatMember env_with_token some_member]).
Proof. reflexivity. Qed.

Example checkAdmin_member :
  fst (checkTelegramAdminTool.execute env_with_token some_member
         (resolves (member_answer "member")) [])
  = inr {| checkTelegramAdminTool.isAdmin := false;
           checkTelegramAdminTool.status := Some (VStr "member");
           checkTelegramAdminTool.error := None |}.
Proof. reflexivity. Qed.

Example checkAdmin_result_missing :
  fst (checkTelegramAdminTool.execute env_with_token some_member
         (resolves (VObj [("ok", VBool true)])) [])
  = inr {| checkTelegramAdminTool.isAdmin := false;
           checkTelegramAdminTool.status := None;
           checkTelegramAdminTool.error :=
             Some (VStr "Cannot read properties of undefined (reading 'status')") |}.
Proof. reflexivity. Qed.

Example sendReply_sent :
  fst (sendReply.execute env_with_token some_reply (resolves (sent_answer 7)) [])
  = inr {| sendReply.success := true;
           sendReply.messageId := Some (VNum (finite 7)) |}.
Proof. reflexivity. Qed.

Example sendMessage_not_ok_without_description :
  fst (sendTelegramMessageTool.execute env_with_token some_message
         (resolves (VObj [("ok", VBool false)])) [])
  = inr {| sendTelegramMessageTool.success := false;
           sendTelegramMessageTool.messageId := None;
           sendTelegramMessageTool.error := Some (VStr "Failed to send message") |}.
Proof. reflexivity. Qed.

(* ===================================================================== *)
(** ** Lemmas on values *)
(* ===================================================================== *)

Lemma strict_eq_string_true (v : value) (lit : string) :
  strict_eq_string v lit = true <-> v = VStr lit.
Proof.
  destruct v; simpl; try (split; [discriminate | intros H; discriminate H]).
  rewrite String.eqb_eq. split.
  - intros ->. reflexivity.
  - intros H. injection H as ->. reflexivity.
Qed.

Lemma truthy_string (s : string) :
  truthy (VStr s) = true <-> s <> EmptyString.
Proof.
  simpl. rewrite negb_true_iff. apply String.eqb_neq.
Qed.

Lemma or_else_truthy (a : value) (lit : string) :
  lit <> EmptyString -> truthy (or_else a (VStr lit)) = true.
Proof.
  intros Hlit. unfold or_else.
  destruct (truthy a) eqn:Ha.
  - exact Ha.
  - apply truthy_string. exact Hlit.
Qed.

(** Reading [ok] succeeds on everything but [null] and [undefined], and
    then every other property of the same value can be read. *)
Lemma get_property_again (data : value) (p q : property) (x : value) :
  get_property data p = inr x ->
  exists y, get_property data q = inr y.
Proof.
  destruct data; simpl; try discriminate; intros _;
    try (eexists; reflexivity).
  destruct (own_property props (property_name q)); eexists; reflexivity.
Qed.

(** Unfolding the monad at a run. *)
Ltac run_js :=
  cbv beta iota delta [bind try_catch fetch json lift ret].

(* ===================================================================== *)
(** ** The admin oracle *)
(* ===================================================================== *)

(** The oracle throws nothing: every run ends with a verdict. *)
Lemma checkTelegramAdmin_total (env : environment) (context : checkTelegramAdminTool.input)
    (net : network) (sent : list request) :
  exists verdict sent',
    checkTelegramAdminTool.execute env context net sent = (inr verdict, sent').
Proof.
  unfold checkTelegramAdminTool.execute.
  destruct (not_token (TELEGRAM_BOT_TOKEN env)).
  - eexists; eexists; reflexivity.
  - run_js.
    destruct (net _) as [e | resp]; [eexists; eexists; reflexivity |].
    destruct (json_result resp) as [e | data]; [eexists; eexists; reflexivity |].
    destruct (get_property data P_ok) as [e | ok] eqn:Hok;
      [eexists; eexists; reflexivity |].
    destruct (truthy ok); simpl.
    + destruct (@get_property_again data P_ok P_result ok Hok) as [result ->].
      destruct (get_property result P_status); eexists; eexists; reflexivity.
    + destruct (@get_property_again data P_ok P_description ok Hok) as [description ->].
      eexists; eexists; reflexivity.
Qed.

(** C2. When the query succeeds (the token is set, the remote answer is
    ok and its result can be read), the verdict carries the remote
    status, and isAdmin is true exactly when that status is the string
    "creator" or the string "administrator". *)
Theorem C2_isAdmin_iff_creator_or_administrator
    (env : environment) (context : checkTelegramAdminTool.input)
    (net : network) (sent : list request)
    (resp : response) (data ok result memberStatus : value) :
  not_token (TELEGRAM_BOT_TOKEN env) = false ->
  net (getChatMember env context) = inr resp ->
  json_result resp = inr data ->
  get_property data P_ok = inr ok ->
  truthy ok = true ->
  get_property data P_result = inr result ->
  get_property result P_status = inr memberStatus ->
  exists verdict,
    checkTelegramAdminTool.execute env context net sent
      = (inr verdict, (sent ++ [getChatMember env context])%list)
    /\ checkTelegramAdminTool.status verdict = Some memberStatus
    /\ checkTelegramAdminTool.error verdict = None
    /\ (checkTelegramAdminTool.isAdmin verdict = true
        <-> memberStatus = VStr "creator" \/ memberStatus = VStr "administrator").
Proof.
  intros Htoken Hnet Hjson Hok Htruthy Hresult Hstatus.
  unfold checkTelegramAdminTool.execute. rewrite Htoken. run_js.
  fold (getChatMember env context).
  rewrite Hnet, Hjson, Hok, Htruthy. simpl. rewrite Hresult, Hstatus.
  eexists. split; [reflexivity |]. simpl.
  repeat split; try reflexivity.
  - intros H. apply orb_true_iff in H.
    destruct H as [H | H]; apply strict_eq_string_true in H; auto.
  - intros [H | H]; apply orb_true_iff; [left | right];
      apply strict_eq_string_true; exact H.
Qed.

Lemma C2_witness :
  exists verdict,
    checkTelegramAdminTool.execute env_with_token some_member
        (resolves (member_answer "administrator")) []
      = (inr verdict, ([] ++ [getChatMember env_with_token some_member])%list)
    /\ checkTelegramAdminTool.status verdict = Some (VStr "administrator")
    /\ checkTelegramAdminTool.error verdict = None
    /\ (checkTelegramAdminTool.isAdmin verdict = true
        <-> VStr "administrator" = VStr "creator"
            \/ VStr "administrator" = VStr "administrator").
Proof.
  apply (@C2_isAdmin_iff_creator_or_administrator
           env_with_token some_member (resolves (member_answer "administrator")) []
           {| json_result := inr (member_answer "administrator") |}
           (member_answer "administrator") (VBool true)
           (VObj [("status", VStr "administrator")]) (VStr "administrator"));
    reflexivity.
Defined.

(** The verdict of a failed query. *)
Lemma checkTelegramAdmin_failure (env : environment)
    (context : checkTelegramAdminTool.input) (net : network) (f : failure)
    (sent : list request) :
  oracle_fails env context net f ->
  exists sent',
    checkTelegramAdminTool.execute env context net sent
    = (inr {| checkTelegramAdminTool.isAdmin := false;
              checkTelegramAdminTool.status := None;
              checkTelegramAdminTool.error :=
                Some match f with
                     | MissingCredential => VStr "Bot token not configured"
                     | NotOk description =>
                         or_else description (VStr "Failed to check admin status")
                     | Exception e => error_message e
                     end |}, sent').
Proof.
  intros Hf. unfold checkTelegramAdminTool.execute.
  destruct Hf as [Htoken | resp data ok description Htoken Hnet Hjson Hok Hfalsy Hdesc
                 | e Htoken Hraises]; rewrite Htoken.
  - eexists; reflexivity.
  - run_js. fold (getChatMember env context).
    rewrite Hnet, Hjson, Hok, Hfalsy. simpl. rewrite Hdesc.
    eexists; reflexivity.
  - run_js. fold (getChatMember env context).
    destruct Hraises as [e Hnet | resp e Hnet Hjson | resp data e Hnet Hjson Hok
                        | resp data ok result e Hnet Hjson Hok Htruthy Hresult Hstatus].
    + rewrite Hnet. eexists; reflexivity.
    + rewrite Hnet, Hjson. eexists; reflexivity.
    + rewrite Hnet, Hjson, Hok. eexists; reflexivity.
    + rewrite Hnet, Hjson, Hok, Htruthy. simpl. rewrite Hresult, Hstatus.
      eexists; reflexivity.
Qed.

(** C3, as the code has it.  On every failure of the oracle (missing
    credential, answer that is not ok, exception in the try block) the
    run ends with a verdict, not with a thrown value, and the verdict
    has isAdmin = false, no status and an error description.  The
    description is not empty for a missing credential and for an answer
    that is not ok; for an exception it is the message of the thrown
    Error, whatever that is, or "Unknown error" for a thrown value that
    is no Error. *)
Theorem C3_oracle_fails_closed
    (env : environment) (context : checkTelegramAdminTool.input)
    (net : network) (sent : list request) (f : failure) :
  oracle_fails env context net f ->
  exists verdict sent',
    checkTelegramAdminTool.execute env context net sent = (inr verdict, sent')
    /\ checkTelegramAdminTool.isAdmin verdict = false
    /\ checkTelegramAdminTool.status verdict = None
    /\ match f with
       | Exception e =>
           checkTelegramAdminTool.error verdict = Some (error_message e)
       | _ => non_empty (checkTelegramAdminTool.error verdict)
       end.
Proof.
  intros Hf.
  destruct (checkTelegramAdmin_failure sent Hf) as [sent' Hrun].
  eexists; exists sent'. split; [exact Hrun |]. simpl.
  repeat split.
  destruct f as [| description | e]; [| | reflexivity].
  - eexists; split; reflexivity.
  - eexists; split; [reflexivity |]. apply or_else_truthy. discriminate.
Qed.

Lemma C3_witness :
  exists verdict sent',
    checkTelegramAdminTool.execute env_with_token some_member
        (resolves (not_ok_answer "Bad Request: chat not found")) []
      = (inr verdict, sent')
    /\ checkTelegramAdminTool.isAdmin verdict = false
    /\ checkTelegramAdminTool.status verdict = None
    /\ non_empty (checkTelegramAdminTool.error verdict).
Proof.
  apply (@C3_oracle_fails_closed env_with_token some_member
           (resolves (not_ok_answer "Bad Request: chat not found")) []
           (NotOk (VStr "Bad Request: chat not found"))).
  apply (@fails_not_ok env_with_token some_member _
           {| json_result := inr (not_ok_answer "Bad Request: chat not found") |}
           (not_ok_answer "Bad Request: chat not found") (VBool false));
    reflexivity.
Defined.

(** Every run of the oracle is a success as in C2 or a failure as in C3. *)
Lemma oracle_succeeds_or_fails (env : environment)
    (context : checkTelegramAdminTool.input) (net : network) :
  (exists resp data ok result memberStatus,
     not_token (TELEGRAM_BOT_TOKEN env) = false
     /\ net (getChatMember env context) = inr resp
     /\ json_result resp = inr data
     /\ get_property data P_ok = inr ok
     /\ truthy ok = true
     /\ get_property data P_result = inr result
     /\ get_property result P_status = inr memberStatus)
  \/ exists f, oracle_fails env context net f.
Proof.
  destruct (not_token (TELEGRAM_BOT_TOKEN env)) eqn:Htoken.
  { right. exists MissingCredential. constructor. exact Htoken. }
  destruct (net (getChatMember env context)) as [e | resp] eqn:Hnet.
  { right. exists (Exception e). constructor; [exact Htoken |].
    apply raises_fetch. exact Hnet. }
  destruct (json_result resp) as [e | data] eqn:Hjson.
  { right. exists (Exception e). constructor; [exact Htoken |].
    eapply raises_json; eassumption. }
  destruct (get_property data P_ok) as [e | ok] eqn:Hok.
  { right. exists (Exception e). constructor; [exact Htoken |].
    eapply raises_data; eassumption. }
  destruct (truthy ok) eqn:Htruthy.
  - destruct (@get_property_again data P_ok P_result ok Hok) as [result Hresult].
    destruct (get_property result P_status) as [e | memberStatus] eqn:Hstatus.
    + right. exists (Exception e). constructor; [exact Htoken |].
      eapply raises_result; eassumption.
    + left. exists resp, data, ok, result, memberStatus. repeat split; assumption.
  - destruct (@get_property_again data P_ok P_description ok Hok) as [description Hdesc].
    right. exists (NotOk description). eapply fails_not_ok; eassumption.
Qed.

(** C3 as stated fails: when [fetch] rejects with an Error whose message
    is empty, the query has failed by an exception and the verdict's
    error description is the empty string. *)
Lemma C3_counterexample_empty_message :
  oracle_fails env_with_token some_member (rejects (ThrownError EmptyString)) (Exception (ThrownError EmptyString))
  /\ checkTelegramAdminTool.execute env_with_token some_member (rejects (ThrownError EmptyString)) []
     = (inr {| checkTelegramAdminTool.isAdmin := false;
               checkTelegramAdminTool.status := None;
               checkTelegramAdminTool.error := Some (VStr EmptyString) |},
        [getChatMember env_with_token some_member])
  /\ ~ non_empty (Some (VStr EmptyString)).
Proof.
  split; [| split].
  - apply fails_exception; [reflexivity |]. apply raises_fetch. reflexivity.
  - reflexivity.
  - intros [v [Hv Htruthy]]. injection Hv as <-. discriminate Htruthy.
Qed.

(* ===================================================================== *)
(** ** Delivery *)
(* ===================================================================== *)

(** C7. Without a bot token (the variable unset or empty) the step
    sendReply returns exactly {success: false}, the tool returns
    success = false, neither throws, and the list of requests sent is
    what it was before: no network call is made. *)
Theorem C7_missing_token_no_network_call
    (env : environment) (inputData : sendReply.input)
    (context : sendTelegramMessageTool.input)
    (net : network) (sent : list request) :
  not_token (TELEGRAM_BOT_TOKEN env) = true ->
  sendReply.execute env inputData net sent
    = (inr {| sendReply.success := false; sendReply.messageId := None |}, sent)
  /\ exists outcome,
       sendTelegramMessageTool.execute env context net sent = (inr outcome, sent)
       /\ sendTelegramMessageTool.success outcome = false
       /\ sendTelegramMessageTool.messageId outcome = None.
Proof.
  intros Htoken.
  unfold sendReply.execute, sendTelegramMessageTool.execute.
  rewrite Htoken. split; [reflexivity |].
  eexists. repeat split.
Qed.

Lemma C7_witness :
  sendReply.execute env_without_token some_reply (resolves (sent_answer 7)) []
    = (inr {| sendReply.success := false; sendReply.messageId := None |}, [])
  /\ exists outcome,
       sendTelegramMessageTool.execute env_without_token some_message
           (resolves (sent_answer 7)) []
         = (inr outcome, [])
       /\ sendTelegramMessageTool.success outcome = false
       /\ sendTelegramMessageTool.messageId outcome = None.
Proof.
  apply (@C7_missing_token_no_network_call env_without_token some_reply some_message
           (resolves (sent_answer 7)) []).
  reflexivity.
Defined.

(** C6, as the code has it.  When the remote answers a delivery with a
    falsy ok and a description that is the non-empty string X, the tool
    sendTelegramMessageTool returns {success: false, error: X}, and the
    workflow step sendReply returns {success: false}, which carries no
    description. *)
Theorem C6_not_ok_description
    (env : environment) (chat : chat_id) (reply : string)
    (net : network) (sent : list request)
    (resp : response) (data ok : value) (X : string) :
  not_token (TELEGRAM_BOT_TOKEN env) = false ->
  net (sendMessage env chat reply) = inr resp ->
  json_result resp = inr data ->
  get_property data P_ok = inr ok ->
  truthy ok = false ->
  get_property data P_description = inr (VStr X) ->
  X <> EmptyString ->
  sendTelegramMessageTool.execute env
      {| sendTelegramMessageTool.chatId := chat;
         sendTelegramMessageTool.text := reply |} net sent
    = (inr {| sendTelegramMessageTool.success := false;
              sendTelegramMessageTool.messageId := None;
              sendTelegramMessageTool.error := Some (VStr X) |},
       (sent ++ [sendMessage env chat reply])%list)
  /\ sendReply.execute env
        {| sendReply.response := reply; sendReply.chatId := chat |} net sent
      = (inr {| sendReply.success := false; sendReply.messageId := None |},
         (sent ++ [sendMessage env chat reply])%list).
Proof.
  intros Htoken Hnet Hjson Hok Hfalsy Hdesc HX.
  unfold sendTelegramMessageTool.execute, sendReply.execute.
  rewrite Htoken. run_js.
  unfold sendTelegramMessageTool.payload, sendReply.payload. simpl.
  fold (sendMessage env chat reply).
  rewrite Hnet, Hjson, Hok, Hfalsy. simpl. rewrite Hdesc.
  unfold or_else. rewrite (proj2 (truthy_string X) HX).
  split; reflexivity.
Qed.

Lemma C6_witness :
  sendTelegramMessageTool.execute env_with_token
      {| sendTelegramMessageTool.chatId := ChatIdString "@channel";
         sendTelegramMessageTool.text := "Hi" |}
      (resolves (not_ok_answer "X")) []
    = (inr {| sendTelegramMessageTool.success := false;
              sendTelegramMessageTool.messageId := None;
              sendTelegramMessageTool.error := Some (VStr "X") |},
       ([] ++ [sendMessage env_with_token (ChatIdString "@channel") "Hi"])%list)
  /\ sendReply.execute env_with_token
        {| sendReply.response := "Hi"; sendReply.chatId := ChatIdString "@channel" |}
        (resolves (not_ok_answer "X")) []
      = (inr {| sendReply.success := false; sendReply.messageId := None |},
         ([] ++ [sendMessage env_with_token (ChatIdString "@channel") "Hi"])%list).
Proof.
  apply (@C6_not_ok_description env_with_token (ChatIdString "@channel") "Hi"
           (resolves (not_ok_answer "X")) []
           {| json_result := inr (not_ok_answer "X") |}
           (not_ok_answer "X") (VBool false) "X");
    try reflexivity.
  discriminate.
Defined.

(** C6 as stated fails on the workflow's delivery step: the remote
    answers {ok: false, description: X} and sendReply returns
    {success: false}, an object without an error property.  It fails on
    the tool too when the description is empty: the error is then the
    fixed text of the tool. *)
Lemma C6_counterexample_sendReply :
  sendReply.execute env_with_token some_reply (resolves (not_ok_answer "X")) []
    = (inr {| sendReply.success := false; sendReply.messageId := None |},
       [sendMessage env_with_token (sendReply.chatId some_reply)
          (sendReply.response some_reply)])
  /\ own_property
       (sendReply.properties {| sendReply.success := false; sendReply.messageId := None |})
       "error" <> Some (VStr "X")
  /\ fst (sendTelegramMessageTool.execute env_with_token some_message
            (resolves (not_ok_answer EmptyString)) [])
     = inr {| sendTelegramMessageTool.success := false;
              sendTelegramMessageTool.messageId := None;
              sendTelegramMessageTool.error := Some (VStr "Failed to send message") |}.
Proof.
  split; [reflexivity | split; [| reflexivity]].
  simpl. discriminate.
Qed.






(** With a token, sendReply sends exactly one request, the sendMessage
    for its chat and text, and ends with an outcome. *)
Lemma sendReply_sends_once (env : environment) (inputData : sendReply.input)
    (net : network) (sent : list request) :
  not_token (TELEGRAM_BOT_TOKEN env) = false ->
  exists outcome,
    sendReply.execute env inputData net sent
    = (inr outcome,
       (sent ++ [sendMessage env (sendReply.chatId inputData)
                   (sendReply.response inputData)])%list).
Proof.
  intros Htoken. unfold sendReply.execute. rewrite Htoken. run_js.
  unfold sendReply.payload.
  fold (sendMessage env (sendReply.chatId inputData) (sendReply.response inputData)).
  destruct (net _) as [e | resp]; [eexists; reflexivity |].
  destruct (json_result resp) as [e | data]; [eexists; reflexivity |].
  destruct (get_property data P_ok) as [e | ok] eqn:Hok; [eexists; reflexivity |].
  destruct (truthy ok); simpl; [| eexists; reflexivity].
  destruct (@get_property_again data P_ok P_result ok Hok) as [result ->].
  destruct (get_property result P_message_id); eexists; reflexivity.
Qed.

(* ===================================================================== *)
(** ** The agent step and the workflow *)
(* ===================================================================== *)

Section Agent.

Variable number_to_string : number -> string.
Variable generate : telegramBotAgent.generate_type.

(** The step resolves whenever the agent does, with the agent's text. *)
Lemma useAgent_resolves (inputData : useAgent.input) (net : network)
    (sent sent' : list request) (out : useAgent.output) :
  useAgent.execute number_to_string generate inputData net sent = (inr out, sent') ->
  exists result,
    generate
      [ {| telegramBotAgent.role := "user";
           telegramBotAgent.content := useAgent.prompt number_to_string inputData |} ]
      {| telegramBotAgent.resourceId := "telegram-bot";
         telegramBotAgent.threadId := useAgent.threadId inputData;
         telegramBotAgent.maxSteps := 5 |} net sent
    = (inr result, sent')
    /\ out = {| useAgent.outputData.response := telegramBotAgent.text result;
                useAgent.outputData.chatId := useAgent.chatId inputData |}.
Proof.
  unfold useAgent.execute. run_js.
  destruct (generate _ _ net sent) as [[e | result] sent1]; [discriminate |].
  intros H. injection H as <- <-. exists result. split; reflexivity.
Qed.

(** C10. Whenever the agent step produces an output, the chatId of
    that output is the chatId of the step's input. *)
Theorem C10_useAgent_keeps_chatId (inputData : useAgent.input) (net : network)
    (sent sent' : list request) (out : useAgent.output) :
  useAgent.execute number_to_string generate inputData net sent = (inr out, sent') ->
  useAgent.outputData.chatId out = useAgent.chatId inputData.
Proof.
  intros Hrun.
  destruct (useAgent_resolves _ _ _ Hrun) as [result [_ ->]].
  reflexivity.
Qed.

(** In a run of the workflow with a token, the one sendMessage request
    follows everything the agent step sent, goes to the chat of the
    incoming message and carries the agent's text. *)
Lemma workflow_delivers_after_agent (env : environment)
    (inputData : telegramBotWorkflow.input) (net : network)
    (sent sent1 : list request) (out : useAgent.output) :
  not_token (TELEGRAM_BOT_TOKEN env) = false ->
  useAgent.execute number_to_string generate
    {| useAgent.message := telegramBotWorkflow.message inputData;
       useAgent.threadId := telegramBotWorkflow.threadId inputData;
       useAgent.chatId := telegramBotWorkflow.chatId inputData;
       useAgent.userId := telegramBotWorkflow.userId inputData |} net sent
    = (inr out, sent1) ->
  exists outcome,
    telegramBotWorkflow.run number_to_string generate env inputData net sent
    = (inr outcome,
       (sent1 ++ [sendMessage env (telegramBotWorkflow.chatId inputData)
                    (useAgent.outputData.response out)])%list).
Proof.
  intros Htoken Hagent.
  destruct (useAgent_resolves _ _ _ Hagent) as [result [_ Hout]].
  unfold telegramBotWorkflow.run, bind at 1. rewrite Hagent.
  destruct (@sendReply_sends_once env
              {| sendReply.response := useAgent.outputData.response out;
                 sendReply.chatId := useAgent.outputData.chatId out |}
              net sent1 Htoken) as [outcome Hsend].
  exists outcome. rewrite Hsend. subst out. reflexivity.
Qed.

End Agent.

Lemma C10_witness :
  useAgent.outputData.chatId
    {| useAgent.outputData.response := "Hello everyone!";
       useAgent.outputData.chatId := ChatIdNumber (finite (-1001)) |}
  = useAgent.chatId some_command.
Proof.
  apply (@C10_useAgent_keeps_chatId print_nothing (constant_agent "Hello everyone!")
           some_command (resolves VNull) [] []).
  reflexivity.
Defined.

(* ===================================================================== *)
(** ** More on the admin oracle *)
(* ===================================================================== *)

(** The verdict and the requests of a successful query. *)
Lemma checkTelegramAdmin_success (env : environment)
    (context : checkTelegramAdminTool.input) (net : network) (sent : list request)
    (resp : response) (data ok result memberStatus : value) :
  not_token (TELEGRAM_BOT_TOKEN env) = false ->
  net (getChatMember env context) = inr resp ->
  json_result resp = inr data ->
  get_property data P_ok = inr ok ->
  truthy ok = true ->
  get_property data P_result = inr result ->
  get_property result P_status = inr memberStatus ->
  checkTelegramAdminTool.execute env context net sent
  = (inr {| checkTelegramAdminTool.isAdmin :=
              strict_eq_string memberStatus "creator"
              || strict_eq_string memberStatus "administrator";
            checkTelegramAdminTool.status := Some memberStatus;
            checkTelegramAdminTool.error := None |},
     (sent ++ [getChatMember env context])%list).
Proof.
  intros Htoken Hnet Hjson Hok Htruthy Hresult Hstatus.
  unfold checkTelegramAdminTool.execute. rewrite Htoken. run_js.
  fold (getChatMember env context).
  rewrite Hnet, Hjson, Hok, Htruthy. simpl. rewrite Hresult, Hstatus.
  reflexivity.
Qed.

(** The requests of a run, whatever its verdict. *)
Lemma checkTelegramAdmin_sent (env : environment)
    (context : checkTelegramAdminTool.input) (net : network) (sent : list request) :
  snd (checkTelegramAdminTool.execute env context net sent)
  = if not_token (TELEGRAM_BOT_TOKEN env) then sent
    else (sent ++ [getChatMember env context])%list.
Proof.
  unfold checkTelegramAdminTool.execute.
  destruct (not_token (TELEGRAM_BOT_TOKEN env)); [reflexivity |].
  run_js. fold (getChatMember env context).
  destruct (net _) as [e | resp]; [reflexivity |].
  destruct (json_result resp) as [e | data]; [reflexivity |].
  destruct (get_property data P_ok) as [e | ok] eqn:Hok; [reflexivity |].
  destruct (truthy ok); simpl.
  - destruct (@get_property_again data P_ok P_result ok Hok) as [result ->].
    destruct (get_property result P_status); reflexivity.
  - destruct (@get_property_again data P_ok P_description ok Hok) as [description ->].
    reflexivity.
Qed.

(** X1. A run of checkTelegramAdminTool sends no request when the token
    is unset or empty, and otherwise exactly one, whatever the remote
    answers (no second attempt after a failure): the POST to
    https://api.telegram.org/bot<token>/getChatMember with the JSON
    content type and the body {chat_id, user_id} of its input. *)
Theorem X1_checkTelegramAdmin_one_request
    (env : environment) (context : checkTelegramAdminTool.input)
    (net : network) (sent : list request) :
  snd (checkTelegramAdminTool.execute env context net sent)
  = if not_token (TELEGRAM_BOT_TOKEN env) then sent
    else (sent ++
          [ {| url := "https://api.telegram.org/bot"
                      ++ token_text (TELEGRAM_BOT_TOKEN env) ++ "/getChatMember";
               method := "POST";
               headers := [("Content-Type", "application/json")];
               body := VObj [("chat_id",
                              chat_id_value (checkTelegramAdminTool.chatId context));
                             ("user_id",
                              VNum (checkTelegramAdminTool.userId context))] |} ])%list.
Proof.
  rewrite checkTelegramAdmin_sent. reflexivity.
Qed.

(** X2. A verdict with isAdmin = true is only ever returned when the
    token is set and the remote has answered the getChatMember request
    with a truthy ok and a result whose status is the string "creator"
    or "administrator"; the verdict then carries that status and no
    error. *)
Theorem X2_isAdmin_only_on_remote_grant
    (env : environment) (context : checkTelegramAdminTool.input)
    (net : network) (sent sent' : list request)
    (verdict : checkTelegramAdminTool.output) :
  checkTelegramAdminTool.execute env context net sent = (inr verdict, sent') ->
  checkTelegramAdminTool.isAdmin verdict = true ->
  not_token (TELEGRAM_BOT_TOKEN env) = false
  /\ exists resp data ok result memberStatus,
       net (getChatMember env context) = inr resp
       /\ json_result resp = inr data
       /\ get_property data P_ok = inr ok
       /\ truthy ok = true
       /\ get_property data P_result = inr result
       /\ get_property result P_status = inr memberStatus
       /\ (memberStatus = VStr "creator" \/ memberStatus = VStr "administrator")
       /\ checkTelegramAdminTool.status verdict = Some memberStatus
       /\ checkTelegramAdminTool.error verdict = None.
Proof.
  intros Hrun Hadmin.
  destruct (oracle_succeeds_or_fails env context net)
    as [(resp & data & ok & result & memberStatus
         & Htoken & Hnet & Hjson & Hok & Htruthy & Hresult & Hstatus) | [f Hf]].
  - rewrite (@checkTelegramAdmin_success env context net sent resp data ok result
               memberStatus Htoken Hnet Hjson Hok Htruthy Hresult Hstatus) in Hrun.
    injection Hrun as <- <-. simpl in Hadmin.
    split; [exact Htoken |].
    exists resp, data, ok, result, memberStatus.
    repeat (split; [assumption |]).
    split; [| split; reflexivity].
    apply orb_true_iff in Hadmin.
    destruct Hadmin as [H | H]; apply strict_eq_string_true in H; auto.
  - destruct (checkTelegramAdmin_failure sent Hf) as [sent1 Hfail].
    rewrite Hfail in Hrun. injection Hrun as <- <-.
    discriminate Hadmin.
Qed.

Lemma X2_witness :
  not_token (TELEGRAM_BOT_TOKEN env_with_token) = false
  /\ exists resp data ok result memberStatus,
       resolves (member_answer "creator") (getChatMember env_with_token some_member)
         = inr resp
       /\ json_result resp = inr data
       /\ get_property data P_ok = inr ok
       /\ truthy ok = true
       /\ get_property data P_result = inr result
       /\ get_property result P_status = inr memberStatus
       /\ (memberStatus = VStr "creator" \/ memberStatus = VStr "administrator")
       /\ checkTelegramAdminTool.status
            {| checkTelegramAdminTool.isAdmin := true;
               checkTelegramAdminTool.status := Some (VStr "creator");
               checkTelegramAdminTool.error := None |} = Some memberStatus
       /\ checkTelegramAdminTool.error
            {| checkTelegramAdminTool.isAdmin := true;
               checkTelegramAdminTool.status := Some (VStr "creator");
               checkTelegramAdminTool.error := None |} = None.
Proof.
  apply (@X2_isAdmin_only_on_remote_grant env_with_token some_member
           (resolves (member_answer "creator")) []
           [getChatMember env_with_token some_member]);
    reflexivity.
Defined.

(** X3. Every run of checkTelegramAdminTool ends with a verdict that has
    exactly one of the two optional properties: a status (the query went
    through) or an error (it failed); and a verdict with an error has
    isAdmin = false. *)
Theorem X3_verdict_has_status_or_error
    (env : environment) (context : checkTelegramAdminTool.input)
    (net : network) (sent : list request) :
  exists verdict sent',
    checkTelegramAdminTool.execute env context net sent = (inr verdict, sent')
    /\ (checkTelegramAdminTool.status verdict = None
        <-> checkTelegramAdminTool.error verdict <> None)
    /\ (checkTelegramAdminTool.error verdict <> None ->
        checkTelegramAdminTool.isAdmin verdict = false).
Proof.
  destruct (oracle_succeeds_or_fails env context net)
    as [(resp & data & ok & result & memberStatus
         & Htoken & Hnet & Hjson & Hok & Htruthy & Hresult & Hstatus) | [f Hf]].
  - eexists; eexists. split.
    + apply (@checkTelegramAdmin_success env context net sent resp data ok result
               memberStatus Htoken Hnet Hjson Hok Htruthy Hresult Hstatus).
    + simpl. split; [split |].
      * discriminate.
      * intros H. contradiction H. reflexivity.
      * intros H. contradiction H. reflexivity.
  - destruct (checkTelegramAdmin_failure sent Hf) as [sent1 Hfail].
    eexists; eexists. split; [exact Hfail |]. simpl.
    split; [split |].
    + discriminate.
    + reflexivity.
    + reflexivity.
Qed.

(** X4. When the remote answers the admin query with a falsy ok, the
    verdict is negative and its error is the remote description if that
    is truthy (a non-empty string, say), and the fixed text "Failed to
    check admin status" if the description is missing, empty or
    otherwise falsy. *)
Theorem X4_admin_not_ok_error
    (env : environment) (context : checkTelegramAdminTool.input)
    (net : network) (sent : list request)
    (resp : response) (data ok description : value) :
  not_token (TELEGRAM_BOT_TOKEN env) = false ->
  net (getChatMember env context) = inr resp ->
  json_result resp = inr data ->
  get_property data P_ok = inr ok ->
  truthy ok = false ->
  get_property data P_description = inr description ->
  exists verdict,
    checkTelegramAdminTool.execute env context net sent
      = (inr verdict, (sent ++ [getChatMember env context])%list)
    /\ checkTelegramAdminTool.isAdmin verdict = false
    /\ checkTelegramAdminTool.status verdict = None
    /\ (truthy description = true ->
        checkTelegramAdminTool.error verdict = Some description)
    /\ (truthy description = false ->
        checkTelegramAdminTool.error verdict
        = Some (VStr "Failed to check admin status")).
Proof.
  intros Htoken Hnet Hjson Hok Hfalsy Hdesc.
  unfold checkTelegramAdminTool.execute. rewrite Htoken. run_js.
  fold (getChatMember env context).
  rewrite Hnet, Hjson, Hok, Hfalsy. simpl. rewrite Hdesc.
  eexists. split; [reflexivity |]. simpl. unfold or_else.
  repeat split; intros ->; reflexivity.
Qed.

Lemma X4_witness :
  exists verdict,
    checkTelegramAdminTool.execute env_with_token some_member
        (resolves (VObj [("ok", VBool false)])) []
      = (inr verdict, ([] ++ [getChatMember env_with_token some_member])%list)
    /\ checkTelegramAdminTool.isAdmin verdict = false
    /\ checkTelegramAdminTool.status verdict = None
    /\ (truthy VUndef = true ->
        checkTelegramAdminTool.error verdict = Some VUndef)
    /\ (truthy VUndef = false ->
        checkTelegramAdminTool.error verdict
        = Some (VStr "Failed to check admin status")).
Proof.
  apply (@X4_admin_not_ok_error env_with_token some_member
           (resolves (VObj [("ok", VBool false)])) []
           {| json_result := inr (VObj [("ok", VBool false)]) |}
           (VObj [("ok", VBool false)]) (VBool false) VUndef);
    reflexivity.
Defined.

(* ===================================================================== *)
(** ** More on delivery *)
(* ===================================================================== *)

(** With a token, the tool and the step make the same single attempt:
    the tool reports what it came to, the step reports the same without
    the error. *)
Lemma delivery_runs (env : environment) (chat : chat_id) (reply : string)
    (net : network) (sent : list request) :
  not_token (TELEGRAM_BOT_TOKEN env) = false ->
  exists outcome,
    delivery net (sendMessage env chat reply) outcome
    /\ sendTelegramMessageTool.execute env
         {| sendTelegramMessageTool.chatId := chat;
            sendTelegramMessageTool.text := reply |} net sent
       = (inr outcome, (sent ++ [sendMessage env chat reply])%list)
    /\ sendReply.execute env
         {| sendReply.response := reply; sendReply.chatId := chat |} net sent
       = (inr (without_error outcome), (sent ++ [sendMessage env chat reply])%list).
Proof.
  intros Htoken.
  unfold sendTelegramMessageTool.execute, sendReply.execute.
  rewrite Htoken. run_js.
  unfold sendTelegramMessageTool.payload, sendReply.payload. simpl.
  fold (sendMessage env chat reply).
  destruct (net (sendMessage env chat reply)) as [e | resp] eqn:Hnet.
  { eexists. split; [| split; reflexivity].
    apply delivery_broken. apply raises_fetch. exact Hnet. }
  destruct (json_result resp) as [e | data] eqn:Hjson.
  { eexists. split; [| split; reflexivity].
    apply delivery_broken. eapply raises_json; eassumption. }
  destruct (get_property data P_ok) as [e | ok] eqn:Hok.
  { eexists. split; [| split; reflexivity].
    apply delivery_broken. eapply raises_data; eassumption. }
  destruct (truthy ok) eqn:Htruthy; simpl.
  - destruct (@get_property_again data P_ok P_result ok Hok) as [result Hresult].
    rewrite Hresult.
    destruct (get_property result P_message_id) as [e | message_id] eqn:Hid.
    + eexists. split; [| split; reflexivity].
      apply delivery_broken. eapply raises_result; eassumption.
    + eexists. split; [| split; reflexivity].
      eapply delivery_acknowledged; eassumption.
  - destruct (@get_property_again data P_ok P_description ok Hok)
      as [description Hdesc].
    rewrite Hdesc.
    eexists. split; [| split; reflexivity].
    eapply delivery_refused; eassumption.
Qed.

(** Without a token, neither makes an attempt. *)
Lemma delivery_without_token (env : environment) (chat : chat_id) (reply : string)
    (net : network) (sent : list request) :
  not_token (TELEGRAM_BOT_TOKEN env) = true ->
  sendTelegramMessageTool.execute env
    {| sendTelegramMessageTool.chatId := chat;
       sendTelegramMessageTool.text := reply |} net sent
  = (inr {| sendTelegramMessageTool.success := false;
            sendTelegramMessageTool.messageId := None;
            sendTelegramMessageTool.error := Some (VStr "Bot token not configured") |},
     sent)
  /\ sendReply.execute env
       {| sendReply.response := reply; sendReply.chatId := chat |} net sent
     = (inr {| sendReply.success := false; sendReply.messageId := None |}, sent).
Proof.
  intros Htoken.
  unfold sendTelegramMessageTool.execute, sendReply.execute.
  rewrite Htoken. split; reflexivity.
Qed.

(** X5. When the remote answers a delivery with a truthy ok and a result
    whose message_id is [id], the tool and the workflow step both return
    success = true with messageId = [id], the value the remote sent,
    after the one sendMessage request. *)
Theorem X5_delivery_acknowledged
    (env : environment) (chat : chat_id) (reply : string)
    (net : network) (sent : list request)
    (resp : response) (data ok result id : value) :
  not_token (TELEGRAM_BOT_TOKEN env) = false ->
  net (sendMessage env chat reply) = inr resp ->
  json_result resp = inr data ->
  get_property data P_ok = inr ok ->
  truthy ok = true ->
  get_property data P_result = inr result ->
  get_property result P_message_id = inr id ->
  sendTelegramMessageTool.execute env
      {| sendTelegramMessageTool.chatId := chat;
         sendTelegramMessageTool.text := reply |} net sent
    = (inr {| sendTelegramMessageTool.success := true;
              sendTelegramMessageTool.messageId := Some id;
              sendTelegramMessageTool.error := None |},
       (sent ++ [sendMessage env chat reply])%list)
  /\ sendReply.execute env
        {| sendReply.response := reply; sendReply.chatId := chat |} net sent
      = (inr {| sendReply.success := true; sendReply.messageId := Some id |},
         (sent ++ [sendMessage env chat reply])%list).
Proof.
  intros Htoken Hnet Hjson Hok Htruthy Hresult Hid.
  unfold sendTelegramMessageTool.execute, sendReply.execute.
  rewrite Htoken. run_js.
  unfold sendTelegramMessageTool.payload, sendReply.payload. simpl.
  fold (sendMessage env chat reply).
  rewrite Hnet, Hjson, Hok, Htruthy. simpl. rewrite Hresult, Hid.
  split; reflexivity.
Qed.

Lemma X5_witness :
  sendTelegramMessageTool.execute env_with_token
      {| sendTelegramMessageTool.chatId := ChatIdString "@channel";
         sendTelegramMessageTool.text := "Hi" |}
      (resolves (sent_answer 7)) []
    = (inr {| sendTelegramMessageTool.success := true;
              sendTelegramMessageTool.messageId := Some (VNum (finite 7));
              sendTelegramMessageTool.error := None |},
       ([] ++ [sendMessage env_with_token (ChatIdString "@channel") "Hi"])%list)
  /\ sendReply.execute env_with_token
        {| sendReply.response := "Hi"; sendReply.chatId := ChatIdString "@channel" |}
        (resolves (sent_answer 7)) []
      = (inr {| sendReply.success := true;
                sendReply.messageId := Some (VNum (finite 7)) |},
         ([] ++ [sendMessage env_with_token (ChatIdString "@channel") "Hi"])%list).
Proof.
  apply (@X5_delivery_acknowledged env_with_token (ChatIdString "@channel") "Hi"
           (resolves (sent_answer 7)) []
           {| json_result := inr (sent_answer 7) |}
           (sent_answer 7) (VBool true)
           (VObj [("message_id", VNum (finite 7))]) (VNum (finite 7)));
    reflexivity.
Defined.

(** X6. The workflow step sendReply returns success = true only when the
    token is set and the remote has answered its sendMessage request
    with a truthy ok and a readable result; the messageId it returns is
    then the message_id of that result, and exactly that one request was
    sent. *)
Theorem X6_success_only_if_acknowledged
    (env : environment) (inputData : sendReply.input)
    (net : network) (sent sent' : list request) (outcome : sendReply.output) :
  sendReply.execute env inputData net sent = (inr outcome, sent') ->
  sendReply.success outcome = true ->
  not_token (TELEGRAM_BOT_TOKEN env) = false
  /\ sent' = (sent ++ [sendMessage env (sendReply.chatId inputData)
                         (sendReply.response inputData)])%list
  /\ exists resp data ok result id,
       net (sendMessage env (sendReply.chatId inputData)
              (sendReply.response inputData)) = inr resp
       /\ json_result resp = inr data
       /\ get_property data P_ok = inr ok
       /\ truthy ok = true
       /\ get_property data P_result = inr result
       /\ get_property result P_message_id = inr id
       /\ sendReply.messageId outcome = Some id.
Proof.
  intros Hrun Hsuccess.
  destruct inputData as [reply chat]. simpl.
  destruct (not_token (TELEGRAM_BOT_TOKEN env)) eqn:Htoken.
  - destruct (delivery_without_token env chat reply net sent Htoken) as [_ Hstep].
    rewrite Hstep in Hrun. injection Hrun as <- <-. discriminate Hsuccess.
  - destruct (delivery_runs env chat reply net sent Htoken)
      as [o [Hdelivery [_ Hstep]]].
    rewrite Hstep in Hrun. injection Hrun as <- <-.
    split; [reflexivity | split; [reflexivity |]].
    destruct Hdelivery as [resp data ok result id Hnet Hjson Hok Htruthy Hresult Hid
                          | resp data ok description Hnet Hjson Hok Hfalsy Hdesc
                          | e Hraises];
      try discriminate Hsuccess.
    exists resp, data, ok, result, id.
    repeat (split; [assumption |]). reflexivity.
Qed.

Lemma X6_witness :
  not_token (TELEGRAM_BOT_TOKEN env_with_token) = false
  /\ [sendMessage env_with_token (sendReply.chatId some_reply)
        (sendReply.response some_reply)]
     = ([] ++ [sendMessage env_with_token (sendReply.chatId some_reply)
                 (sendReply.response some_reply)])%list
  /\ exists resp data ok result id,
       resolves (sent_answer 7)
         (sendMessage env_with_token (sendReply.chatId some_reply)
            (sendReply.response some_reply)) = inr resp
       /\ json_result resp = inr data
       /\ get_property data P_ok = inr ok
       /\ truthy ok = true
       /\ get_property data P_result = inr result
       /\ get_property result P_message_id = inr id
       /\ sendReply.messageId
            {| sendReply.success := true;
               sendReply.messageId := Some (VNum (finite 7)) |} = Some id.
Proof.
  apply (@X6_success_only_if_acknowledged env_with_token some_reply
           (resolves (sent_answer 7)) []);
    reflexivity.
Defined.

(** X7. On the same chat, text, environment and remote side, the
    workflow step sendReply and the tool sendTelegramMessageTool send
    the same requests and return the same success and the same
    messageId; the step's outcome is the tool's without the error. *)
Theorem X7_sendReply_agrees_with_tool
    (env : environment) (chat : chat_id) (reply : string)
    (net : network) (sent : list request) :
  exists tool_outcome sent',
    sendTelegramMessageTool.execute env
      {| sendTelegramMessageTool.chatId := chat;
         sendTelegramMessageTool.text := reply |} net sent
    = (inr tool_outcome, sent')
    /\ sendReply.execute env
         {| sendReply.response := reply; sendReply.chatId := chat |} net sent
       = (inr {| sendReply.success := sendTelegramMessageTool.success tool_outcome;
                 sendReply.messageId := sendTelegramMessageTool.messageId tool_outcome |},
          sent').
Proof.
  destruct (not_token (TELEGRAM_BOT_TOKEN env)) eqn:Htoken.
  - destruct (delivery_without_token env chat reply net sent Htoken) as [Htool Hstep].
    eexists; eexists. split; [exact Htool | exact Hstep].
  - destruct (delivery_runs env chat reply net sent Htoken)
      as [o [_ [Htool Hstep]]].
    exists o. eexists. split; [exact Htool | exact Hstep].
Qed.

(** X8. Every run of sendTelegramMessageTool ends with an outcome, never
    with a thrown value; the outcome has an error property exactly when
    success is false and a messageId property exactly when success is
    true. *)
Theorem X8_sendTelegramMessage_outcome_shape
    (env : environment) (context : sendTelegramMessageTool.input)
    (net : network) (sent : list request) :
  exists outcome sent',
    sendTelegramMessageTool.execute env context net sent = (inr outcome, sent')
    /\ (sendTelegramMessageTool.error outcome <> None
        <-> sendTelegramMessageTool.success outcome = false)
    /\ (sendTelegramMessageTool.messageId outcome <> None
        <-> sendTelegramMessageTool.success outcome = true).
Proof.
  destruct context as [chat reply].
  destruct (not_token (TELEGRAM_BOT_TOKEN env)) eqn:Htoken.
  - destruct (delivery_without_token env chat reply net sent Htoken) as [Htool _].
    eexists; eexists. split; [exact Htool |]. simpl.
    split; split; try discriminate; try reflexivity.
    intros H. contradiction H. reflexivity.
  - destruct (delivery_runs env chat reply net sent Htoken)
      as [o [Hdelivery [Htool _]]].
    exists o. eexists. split; [exact Htool |].
    destruct Hdelivery; simpl;
      split; split; try discriminate; try reflexivity;
      intros Habsent; contradiction Habsent; reflexivity.
Qed.

(** X9. When the try block of a delivery throws (fetch rejects,
    response.json() rejects, the answer is null, or an ok answer has no
    readable result), nothing is thrown to the caller: the tool returns
    {success: false, error} with the message of the thrown Error, or
    "Unknown error" for a thrown value that is no Error, and the
    workflow step returns {success: false}. *)
Theorem X9_delivery_exception_is_caught
    (env : environment) (chat : chat_id) (reply : string)
    (net : network) (sent : list request) (e : thrown) :
  not_token (TELEGRAM_BOT_TOKEN env) = false ->
  raises net (sendMessage env chat reply) P_message_id e ->
  sendTelegramMessageTool.execute env
      {| sendTelegramMessageTool.chatId := chat;
         sendTelegramMessageTool.text := reply |} net sent
    = (inr {| sendTelegramMessageTool.success := false;
              sendTelegramMessageTool.messageId := None;
              sendTelegramMessageTool.error :=
                Some match e with
                     | ThrownError message => VStr message
                     | ThrownOther => VStr "Unknown error"
                     end |},
       (sent ++ [sendMessage env chat reply])%list)
  /\ sendReply.execute env
        {| sendReply.response := reply; sendReply.chatId := chat |} net sent
      = (inr {| sendReply.success := false; sendReply.messageId := None |},
         (sent ++ [sendMessage env chat reply])%list).
Proof.
  intros Htoken Hraises.
  unfold sendTelegramMessageTool.execute, sendReply.execute.
  rewrite Htoken. run_js.
  unfold sendTelegramMessageTool.payload, sendReply.payload. simpl.
  fold (sendMessage env chat reply).
  destruct Hraises as [e Hnet | resp e Hnet Hjson | resp data e Hnet Hjson Hok
                      | resp data ok result e Hnet Hjson Hok Htruthy Hresult Hid].
  - rewrite Hnet. split; reflexivity.
  - rewrite Hnet, Hjson. split; reflexivity.
  - rewrite Hnet, Hjson, Hok. split; reflexivity.
  - rewrite Hnet, Hjson, Hok, Htruthy. simpl. rewrite Hresult, Hid.
    split; reflexivity.
Qed.

Lemma X9_witness :
  sendTelegramMessageTool.execute env_with_token
      {| sendTelegramMessageTool.chatId := ChatIdString "@channel";
         sendTelegramMessageTool.text := "Hi" |}
      (resolves (VObj [("ok", VBool true)])) []
    = (inr {| sendTelegramMessageTool.success := false;
              sendTelegramMessageTool.messageId := None;
              sendTelegramMessageTool.error :=
                Some (VStr "Cannot read properties of undefined (reading 'message_id')") |},
       ([] ++ [sendMessage env_with_token (ChatIdString "@channel") "Hi"])%list)
  /\ sendReply.execute env_with_token
        {| sendReply.response := "Hi"; sendReply.chatId := ChatIdString "@channel" |}
        (resolves (VObj [("ok", VBool true)])) []
      = (inr {| sendReply.success := false; sendReply.messageId := None |},
         ([] ++ [sendMessage env_with_token (ChatIdString "@channel") "Hi"])%list).
Proof.
  apply (@X9_delivery_exception_is_caught env_with_token (ChatIdString "@channel") "Hi"
           (resolves (VObj [("ok", VBool true)])) []
           (cannot_read "undefined" P_message_id)).
  - reflexivity.
  - apply (@raises_result _ _ _
             {| json_result := inr (VObj [("ok", VBool true)]) |}
             (VObj [("ok", VBool true)]) (VBool true) VUndef);
      reflexivity.
Defined.

(** X10. A delivery sends no request when the token is unset or empty,
    and otherwise exactly one, whatever the remote answers (no retry):
    the POST to https://api.telegram.org/bot<token>/sendMessage with the
    JSON content type and the body {chat_id, text} made of the chat id
    and the text of its input, unchanged.  The step and the tool send
    the same. *)
Theorem X10_delivery_one_request
    (env : environment) (chat : chat_id) (reply : string)
    (net : network) (sent : list request) :
  let attempt :=
    if not_token (TELEGRAM_BOT_TOKEN env) then sent
    else (sent ++
          [ {| url := "https://api.telegram.org/bot"
                      ++ token_text (TELEGRAM_BOT_TOKEN env) ++ "/sendMessage";
               method := "POST";
               headers := [("Content-Type", "application/json")];
               body := VObj [("chat_id", chat_id_value chat);
                             ("text", VStr reply)] |} ])%list in
  snd (sendReply.execute env
         {| sendReply.response := reply; sendReply.chatId := chat |} net sent)
  = attempt
  /\ snd (sendTelegramMessageTool.execute env
            {| sendTelegramMessageTool.chatId := chat;
               sendTelegramMessageTool.text := reply |} net sent)
     = attempt.
Proof.
  simpl.
  destruct (not_token (TELEGRAM_BOT_TOKEN env)) eqn:Htoken.
  - destruct (delivery_without_token env chat reply net sent Htoken) as [-> ->].
    split; reflexivity.
  - destruct (delivery_runs env chat reply net sent Htoken) as [o [_ [-> ->]]].
    split; reflexivity.
Qed.

(* ===================================================================== *)
(** ** More on the agent step and the workflow *)
(* ===================================================================== *)

Lemma append_length (a b : string) :
  String.length (a ++ b) = (String.length a + String.length b)%nat.
Proof.
  induction a as [| c a IH]; simpl; [reflexivity | rewrite IH; reflexivity].
Qed.

(** Reading back a string that sits at the front of another. *)
Lemma substring_front (a b : string) :
  String.substring 0 (String.length a) (a ++ b) = a.
Proof.
  induction a as [| c a IH]; simpl.
  - destruct b; reflexivity.
  - rewrite IH. reflexivity.
Qed.

Section AgentStep.

Variable number_to_string : number -> string.
Variable generate : telegramBotAgent.generate_type.

(** X11. useAgent calls the agent once, with a single user message that
    holds the prompt and with the thread id of its input, and has no
    try/catch around the call: it throws exactly what the agent throws,
    and otherwise returns the agent's text, unchanged, as the response. *)
Theorem X11_useAgent_passes_agent_result (inputData : useAgent.input)
    (net : network) (sent sent' : list request) :
  (forall e : thrown,
     useAgent.execute number_to_string generate inputData net sent = (inl e, sent')
     <-> generate (agent_messages number_to_string inputData)
           (agent_options inputData) net sent = (inl e, sent'))
  /\ (forall out : useAgent.output,
        useAgent.execute number_to_string generate inputData net sent = (inr out, sent')
        <-> exists result,
              generate (agent_messages number_to_string inputData)
                (agent_options inputData) net sent = (inr result, sent')
              /\ out = {| useAgent.outputData.response := telegramBotAgent.text result;
                          useAgent.outputData.chatId := useAgent.chatId inputData |}).
Proof.
  unfold useAgent.execute, agent_messages, agent_options. run_js.
  destruct (generate _ _ net sent) as [[e0 | result] sent1]; split.
  - intros e. split; intros H; injection H as -> ->; reflexivity.
  - intros out. split; [discriminate |].
    intros [r [H _]]. discriminate H.
  - intros e. split; discriminate.
  - intros out. split.
    + intros H. injection H as <- <-. exists result. split; reflexivity.
    + intros [r [H ->]]. injection H as -> ->. reflexivity.
Qed.

(** X12. The prompt holds the message verbatim: the characters of the
    prompt from offset 15 (after the line break and "User message: ")
    on, as many as the message has, are the message itself, and the
    prompt is longer than the message by the length of the prompt of the
    same chat and user with an empty message.  So the message is neither
    cut nor escaped nor padded, whatever it contains. *)
Theorem X12_prompt_holds_message_verbatim (inputData : useAgent.input) :
  String.substring 15 (String.length (useAgent.message inputData))
    (useAgent.prompt number_to_string inputData)
  = useAgent.message inputData
  /\ String.length (useAgent.prompt number_to_string inputData)
     = (String.length (useAgent.message inputData)
        + String.length
            (useAgent.prompt number_to_string
               {| useAgent.message := EmptyString;
                  useAgent.threadId := useAgent.threadId inputData;
                  useAgent.chatId := useAgent.chatId inputData;
                  useAgent.userId := useAgent.userId inputData |}))%nat.
Proof.
  unfold useAgent.prompt.
  cbn [useAgent.message useAgent.chatId useAgent.userId].
  match goal with
  | |- context [useAgent.message inputData ++ ?r] => generalize r; intros rest
  end.
  split.
  - cbn [append String.substring]. apply substring_front.
  - cbn [append String.length]. rewrite append_length. lia.
Qed.

End AgentStep.



(** X14. The remote side matters to the oracle only through its answer
    to the one getChatMember request, and to a delivery only through its
    answer to the one sendMessage request: two remote sides that agree
    on that request give the same result and the same requests. *)
Theorem X14_only_the_own_request_matters
    (env : environment) (context : checkTelegramAdminTool.input)
    (chat : chat_id) (reply : string)
    (net1 net2 : network) (sent : list request) :
  (net1 (getChatMember env context) = net2 (getChatMember env context) ->
   checkTelegramAdminTool.execute env context net1 sent
   = checkTelegramAdminTool.execute env context net2 sent)
  /\ (net1 (sendMessage env chat reply) = net2 (sendMessage env chat reply) ->
      sendReply.execute env
        {| sendReply.response := reply; sendReply.chatId := chat |} net1 sent
      = sendReply.execute env
          {| sendReply.response := reply; sendReply.chatId := chat |} net2 sent
      /\ sendTelegramMessageTool.execute env
           {| sendTelegramMessageTool.chatId := chat;
              sendTelegramMessageTool.text := reply |} net1 sent
         = sendTelegramMessageTool.execute env
             {| sendTelegramMessageTool.chatId := chat;
                sendTelegramMessageTool.text := reply |} net2 sent).
Proof.
  split.
  - intros Hsame. unfold checkTelegramAdminTool.execute.
    destruct (not_token (TELEGRAM_BOT_TOKEN env)); [reflexivity |].
    run_js. fold (getChatMember env context). rewrite Hsame.
    destruct (net2 _) as [e | resp]; [reflexivity |].
    destruct (json_result resp) as [e | data]; [reflexivity |].
    destruct (get_property data P_ok) as [e | ok]; [reflexivity |].
    destruct (truthy ok); reflexivity.
  - intros Hsame. unfold sendReply.execute, sendTelegramMessageTool.execute.
    destruct (not_token (TELEGRAM_BOT_TOKEN env)); [split; reflexivity |].
    run_js. unfold sendReply.payload, sendTelegramMessageTool.payload. simpl.
    fold (sendMessage env chat reply). rewrite Hsame.
    destruct (net2 _) as [e | resp]; [split; reflexivity |].
    destruct (json_result resp) as [e | data]; [split; reflexivity |].
    destruct (get_property data P_ok) as [e | ok]; [split; reflexivity |].
    destruct (truthy ok); split; reflexivity.
Qed.

Lemma X14_witness :
  checkTelegramAdminTool.execute env_with_token some_member
    (resolves (member_answer "creator")) []
  = checkTelegramAdminTool.execute env_with_token some_member
      (fun req =>
         if String.eqb (url req) (url (getChatMember env_with_token some_member))
         then inr {| json_result := inr (member_answer "creator") |}
         else inl ThrownOther) [].
Proof.
  apply (proj1 (@X14_only_the_own_request_matters env_with_token some_member
                  (ChatIdString "@channel") "Hi"
                  (resolves (member_answer "creator"))
                  (fun req =>
                     if String.eqb (url req)
                          (url (getChatMember env_with_token some_member))
                     then inr {| json_result := inr (member_answer "creator") |}
                     else inl ThrownOther) [])).
  reflexivity.
Defined.
